(** * ros-mcp-server: the tool dispatcher of [server.py]

    A shallow embedding of [handle_list_tools] and [handle_call_tool].
    The handler is a sequential program that talks to the roslibpy client
    library and to the asyncio event loop.  Both are outside the
    repository, so every call into them is an explicit node of a program
    tree; the tree is then run against an environment that decides what
    each call returns or raises and which messages it delivers to a
    registered subscription callback.  What is known of the library, the
    signature of [roslibpy.Topic] above all, is a hypothesis on the
    environment. *)

From Stdlib Require Import ZArith String List.
From stdpp Require Import base option list strings pretty gmap.

Set Warnings "-register-all".
Local Open Scope Z_scope.
Local Open Scope string_scope.

(** ** Python values *)

(** The values that cross the handler: decoded JSON arguments, the values
    the client library returns, and opaque library objects (a [Topic], a
    [Service], a [Param], a [Message]).  The handler never computes with a
    float, it only passes it on and prints it, so a float is carried by its
    printed form.  A dict keeps its entries in insertion order. *)
Inductive value : Type :=
| VNone
| VBool (b : bool)
| VInt (n : Z)
| VFloat (lit : string)
| VStr (s : string)
| VList (items : list value)
| VDict (entries : list (string * value))
| VObj (id : nat).

(** What the Python runtime decides and the source does not: the quoting
    and escaping of [repr] on a [str], and the default [repr] of a library
    object. *)
Class PyRuntime := {
  repr_str : string -> string;
  repr_obj : nat -> string
}.

Module Py.
Section Printing.
Context `{PyRuntime}.

(** [", ".join(parts)] *)
Fixpoint join (parts : list string) : string :=
  match parts with
  | [] => EmptyString
  | [p] => p
  | p :: rest => p +:+ ", " +:+ join rest
  end.

(** [repr(v)] *)
Fixpoint repr (v : value) : string :=
  match v with
  | VNone => "None"
  | VBool true => "True"
  | VBool false => "False"
  | VInt n => pretty n
  | VFloat lit => lit
  | VStr s => repr_str s
  | VList items => "[" +:+ join (map repr items) +:+ "]"
  | VDict entries =>
      "{" +:+ join (map (fun kv => repr_str (fst kv) +:+ ": " +:+ repr (snd kv)) entries) +:+ "}"
  | VObj id => repr_obj id
  end.

(** What an f-string replacement field [{v}] prints, the default format:
    a [str] as it is, every other value here through its [repr]. *)
Definition str (v : value) : string :=
  match v with
  | VStr s => s
  | _ => repr v
  end.

(** [len(l)] as a Python int *)
Definition len (l : list value) : value := VInt (Z.of_nat (length l)).

(** Truth value of a list: [if messages:] *)
Definition truthy (l : list value) : bool :=
  match l with [] => false | _ :: _ => true end.

(** [l[-k:]] for a positive [k]: the start index [len(l) - k] is clamped
    at 0, which truncated subtraction on [nat] does as well. *)
Definition slice_last (k : nat) (l : list value) : list value :=
  drop (length l - k) l.
End Printing.
End Py.

(** ** Exceptions *)

(** An exception object: its class name, whether the class derives from
    [Exception] (task cancellation, [KeyboardInterrupt] and [SystemExit]
    derive from [BaseException] only), and [str(e)]. *)
Record exn : Type := {
  exn_class : string;
  is_Exception : bool;
  exn_str : string
}.

(** [KeyError(k)], raised by [arguments[k]]; its [str] is [repr(k)]. *)
Definition KeyError `{PyRuntime} (k : string) : exn :=
  {| exn_class := "KeyError"; is_Exception := true; exn_str := repr_str k |}.

(** ** Calls that leave the handler *)

(** One constructor per call site into roslibpy or asyncio.  The global
    connection [ros] is the receiver or first argument of each of them and
    is left implicit, and so is the one callback ever passed to
    [subscribe], the closure [message_callback]. *)
Inductive libcall : Type :=
| ros_get_topics
| ros_get_topic_type (topic_name : value)
| Topic_init (name : value) (message_type : option value)
| Message_init (values : value)
| Topic_publish (publisher message : value)
| ros_get_nodes
| ros_get_node_details (node_name : value)
| ros_get_services
| ros_get_service_type (service_name : value)
| Service_init (name service_type : value)
| ServiceRequest_init (values : value)
| Service_call (service request : value)
| Param_init (name : value)
| Param_get (param : value)
| Param_set (param new_value : value)
| ros_get_params
| Topic_subscribe (listener : value)
| asyncio_sleep (delay : value)
| Topic_unsubscribe (listener : value).

(** How a call ends. *)
Inductive outcome (A : Type) : Type :=
| Returns (a : A)
| Raises (e : exn).
Arguments Returns {A} a.
Arguments Raises {A} e.

(** What the environment answers to a call: the messages it hands to the
    subscription callback while the call is in progress (roslibpy invokes
    callbacks from its own reactor thread), then the result. *)
Record reply : Type := {
  delivered : list value;
  result : outcome value
}.

(** ** Programs *)

Inductive prog (A : Type) : Type :=
| Ret (a : A)
| Throw (e : exn)
| Call (c : libcall) (k : reply -> prog A).
Arguments Ret {A} a.
Arguments Throw {A} e.
Arguments Call {A} c k.

Fixpoint bind {A B : Type} (p : prog A) (f : A -> prog B) : prog B :=
  match p with
  | Ret a => f a
  | Throw e => Throw e
  | Call c k => Call c (fun r => bind (k r) f)
  end.

Declare Scope prog_scope.
Delimit Scope prog_scope with prog.
Notation "x <- p ;; q" := (bind p (fun x => q))
  (at level 100, p at next level, right associativity) : prog_scope.
Local Open Scope prog_scope.

(** [try: p  except Exception as e: h e].  Only instances of [Exception]
    are caught; anything else keeps propagating.  The handler [h] runs
    outside the protected block. *)
Fixpoint try_except_Exception {A : Type} (p : prog A) (h : exn -> prog A) : prog A :=
  match p with
  | Ret a => Ret a
  | Throw e => if is_Exception e then h e else Throw e
  | Call c k => Call c (fun r => try_except_Exception (k r) h)
  end.

(** A call made while no callback of this handler is registered: whatever
    the reactor delivers meanwhile does not reach the handler. *)
Definition call (c : libcall) : prog value :=
  Call c (fun r =>
    match result r with
    | Returns v => Ret v
    | Raises e => Throw e
    end).

(** ** The handler *)

(** The two [mcp.types] classes the server uses.  An input schema keeps
    its property names with their JSON types and its [required] list. *)
Module types.
Record TextContent : Type := {
  type : string;
  text : string
}.

Record Schema : Type := {
  properties : list (string * string);
  required : list string
}.

Record Tool : Type := {
  name : string;
  description : string;
  inputSchema : Schema
}.
End types.

Module Server.

(** [handle_list_tools]: the twelve tools with their input schemas. *)
Definition tool (name description : string) (properties : list (string * string))
    (required : list string) : types.Tool :=
  {| types.name := name;
     types.description := description;
     types.inputSchema := {| types.properties := properties; types.required := required |} |}.

Definition handle_list_tools : list types.Tool :=
  [ tool "list_topics" "List all available ROS topics" [] [];
    tool "get_topic_info" "Get information about a specific ROS topic"
      [("topic_name", "string")] ["topic_name"];
    tool "publish_message" "Publish a message to a ROS topic"
      [("topic_name", "string"); ("message_type", "string"); ("message_data", "object")]
      ["topic_name"; "message_type"; "message_data"];
    tool "list_nodes" "List all available ROS nodes" [] [];
    tool "get_node_info" "Get information about a specific ROS node"
      [("node_name", "string")] ["node_name"];
    tool "list_services" "List all available ROS services" [] [];
    tool "get_service_info" "Get information about a specific ROS service"
      [("service_name", "string")] ["service_name"];
    tool "call_service" "Call a ROS service"
      [("service_name", "string"); ("service_type", "string"); ("service_args", "object")]
      ["service_name"; "service_type"; "service_args"];
    tool "get_param" "Get a ROS parameter value"
      [("param_name", "string")] ["param_name"];
    tool "set_param" "Set a ROS parameter value"
      [("param_name", "string"); ("param_value", "string")]
      ["param_name"; "param_value"];
    tool "list_params" "List all available ROS parameters" [] [];
    tool "subscribe_topic" "Subscribe to a ROS topic and get recent messages"
      [("topic_name", "string"); ("timeout", "number")] ["topic_name"] ].

(** The names of the supported operations. *)
Definition tool_names : list string := map types.name handle_list_tools.

Section Handler.
Context `{PyRuntime}.

(** [arguments[k]] *)
Definition getitem (arguments : gmap string value) (k : string) : prog value :=
  match arguments !! k with
  | Some v => Ret v
  | None => Throw (KeyError k)
  end.

(** [arguments.get(k, d)] *)
Definition get (arguments : gmap string value) (k : string) (d : value) : value :=
  default d (arguments !! k).

(** [[types.TextContent(type="text", text=s)]] *)
Definition text_result (s : string) : list types.TextContent :=
  [ {| types.type := "text"; types.text := s |} ].

(** The closure [message_callback]: [messages.append(message)]. *)
Definition message_callback (messages : list value) (message : value) : list value :=
  messages ++ [message].

(** A call made while [message_callback] is registered on the listener:
    every message delivered during the call is appended to [messages]
    before the call returns.  The source discards what these calls return;
    the list as it stands after the call is handed on. *)
Definition call_listening (messages : list value) (c : libcall) : prog (list value) :=
  Call c (fun r =>
    let messages := foldl message_callback messages (delivered r) in
    match result r with
    | Returns _ => Ret messages
    | Raises e => Throw e
    end).

(** The body of the [try] block.  Python returns [None] when no branch
    is taken. *)
Definition body (name : string) (arguments : gmap string value)
  : prog (option (list types.TextContent)) :=
  if String.eqb name "list_topics" then
    topics <- call ros_get_topics ;;
    Ret (Some (text_result ("Available topics: " +:+ Py.str topics)))
  else if String.eqb name "get_topic_info" then
    topic_name <- getitem arguments "topic_name" ;;
    topic_type <- call (ros_get_topic_type topic_name) ;;
    Ret (Some (text_result
      ("Topic " +:+ Py.str topic_name +:+ " type: " +:+ Py.str topic_type)))
  else if String.eqb name "publish_message" then
    topic_name <- getitem arguments "topic_name" ;;
    message_type <- getitem arguments "message_type" ;;
    message_data <- getitem arguments "message_data" ;;
    publisher <- call (Topic_init topic_name (Some message_type)) ;;
    message <- call (Message_init message_data) ;;
    _ <- call (Topic_publish publisher message) ;;
    Ret (Some (text_result ("Published message to " +:+ Py.str topic_name)))
  else if String.eqb name "list_nodes" then
    nodes <- call ros_get_nodes ;;
    Ret (Some (text_result ("Available nodes: " +:+ Py.str nodes)))
  else if String.eqb name "get_node_info" then
    node_name <- getitem arguments "node_name" ;;
    node_details <- call (ros_get_node_details node_name) ;;
    Ret (Some (text_result
      ("Node " +:+ Py.str node_name +:+ " details: " +:+ Py.str node_details)))
  else if String.eqb name "list_services" then
    services <- call ros_get_services ;;
    Ret (Some (text_result ("Available services: " +:+ Py.str services)))
  else if String.eqb name "get_service_info" then
    service_name <- getitem arguments "service_name" ;;
    service_type <- call (ros_get_service_type service_name) ;;
    Ret (Some (text_result
      ("Service " +:+ Py.str service_name +:+ " type: " +:+ Py.str service_type)))
  else if String.eqb name "call_service" then
    service_name <- getitem arguments "service_name" ;;
    service_type <- getitem arguments "service_type" ;;
    service_args <- getitem arguments "service_args" ;;
    service <- call (Service_init service_name service_type) ;;
    request <- call (ServiceRequest_init service_args) ;;
    result <- call (Service_call service request) ;;
    Ret (Some (text_result ("Service call result: " +:+ Py.str result)))
  else if String.eqb name "get_param" then
    param_name <- getitem arguments "param_name" ;;
    param <- call (Param_init param_name) ;;
    value <- call (Param_get param) ;;
    Ret (Some (text_result
      ("Parameter " +:+ Py.str param_name +:+ " value: " +:+ Py.str value)))
  else if String.eqb name "set_param" then
    param_name <- getitem arguments "param_name" ;;
    param_value <- getitem arguments "param_value" ;;
    param <- call (Param_init param_name) ;;
    _ <- call (Param_set param param_value) ;;
    Ret (Some (text_result
      ("Set parameter " +:+ Py.str param_name +:+ " to " +:+ Py.str param_value)))
  else if String.eqb name "list_params" then
    params <- call ros_get_params ;;
    Ret (Some (text_result ("Available parameters: " +:+ Py.str params)))
  else if String.eqb name "subscribe_topic" then
    topic_name <- getitem arguments "topic_name" ;;
    let timeout := get arguments "timeout" (VFloat "5.0") in
    let messages := [] in
    listener <- call (Topic_init topic_name None) ;;
    messages <- call_listening messages (Topic_subscribe listener) ;;
    messages <- call_listening messages (asyncio_sleep timeout) ;;
    messages <- call_listening messages (Topic_unsubscribe listener) ;;
    if Py.truthy messages then
      Ret (Some (text_result
        ("Received " +:+ Py.str (Py.len messages) +:+ " messages from "
           +:+ Py.str topic_name +:+ ": " +:+ Py.str (VList (Py.slice_last 5 messages)))))
    else
      Ret (Some (text_result
        ("No messages received from " +:+ Py.str topic_name +:+ " within "
           +:+ Py.str timeout +:+ " seconds")))
  else
    Ret None.

(** The [except Exception as e] clause. *)
Definition error_text (name : string) (e : exn) : string :=
  "Error executing " +:+ name +:+ ": " +:+ exn_str e.

Definition handle_call_tool (name : string) (arguments : gmap string value)
  : prog (option (list types.TextContent)) :=
  try_except_Exception (body name arguments)
    (fun e => Ret (Some (text_result (error_text name e)))).
End Handler.
End Server.

(** ** Running a program *)

(** The environment stands for everything behind the library calls: the
    roslibpy client, the rosbridge connection, the broker and the event
    loop.  It answers each call from its own state. *)
Definition environment (W : Type) : Type := libcall -> W -> reply * W.

(** How a run ended, the state it left the environment in, and the calls
    it made, first call first. *)
Record execution (W A : Type) : Type := {
  ended : outcome A;
  world_after : W;
  calls : list libcall
}.
Arguments ended {W A} e.
Arguments world_after {W A} e.
Arguments calls {W A} e.

Fixpoint run {W A : Type} (env : environment W) (p : prog A) (w : W) : execution W A :=
  match p with
  | Ret a => {| ended := Returns a; world_after := w; calls := [] |}
  | Throw e => {| ended := Raises e; world_after := w; calls := [] |}
  | Call c k =>
      let '(r, w') := env c w in
      let x := run env (k r) w' in
      {| ended := ended x; world_after := world_after x; calls := c :: calls x |}
  end.

(** The call [c] made in state [w] delivers [d] to the callback, returns
    [v] and leaves the environment in state [w']. *)
Definition returns {W : Type} (env : environment W) (c : libcall) (w : W)
    (d : list value) (v : value) (w' : W) : Prop :=
  env c w = ({| delivered := d; result := Returns v |}, w').

(** Every value the program can return satisfies [P]. *)
Inductive returns_only {A : Type} (P : A -> Prop) : prog A -> Prop :=
| ro_Ret a : P a -> returns_only P (Ret a)
| ro_Throw e : returns_only P (Throw e)
| ro_Call c k : (forall r, returns_only P (k r)) -> returns_only P (Call c k).

(** The replies the environment gave during a run, first reply first. *)
Fixpoint answers {W A : Type} (env : environment W) (p : prog A) (w : W) : list reply :=
  match p with
  | Call c k => let '(r, w') := env c w in r :: answers env (k r) w'
  | _ => []
  end.

(** Every call the program can make satisfies [P]. *)
Inductive calls_only {A : Type} (P : libcall -> Prop) : prog A -> Prop :=
| co_Ret a : calls_only P (Ret a)
| co_Throw e : calls_only P (Throw e)
| co_Call c k : P c -> (forall r, calls_only P (k r)) -> calls_only P (Call c k).

(** A program that gives up at the first call that raises: the exception
    is thrown on at once, no call follows it. *)
Inductive fail_fast {A : Type} : prog A -> Prop :=
| ff_Ret a : fail_fast (Ret a)
| ff_Throw e : fail_fast (Throw e)
| ff_Call c k :
    (forall r e, result r = Raises e -> k r = Throw e) ->
    (forall r, fail_fast (k r)) ->
    fail_fast (Call c k).

(** The calls of a subscription window: registering the callback, waiting,
    and taking the callback off again. *)
Definition listens (c : libcall) : bool :=
  match c with
  | Topic_subscribe _ | asyncio_sleep _ | Topic_unsubscribe _ => true
  | _ => false
  end.

(** The calls that act on the robot rather than ask about it or build a
    local object: publishing a message, calling a service, writing a
    parameter. *)
Definition acts_on_robot (c : libcall) : bool :=
  match c with
  | Topic_publish _ _ | Service_call _ _ | Param_set _ _ => true
  | _ => false
  end.

(** The one call that is awaited. *)
Definition awaits (c : libcall) : bool :=
  match c with
  | asyncio_sleep _ => true
  | _ => false
  end.

(** The signature of the library's [Topic]:
    [Topic.__init__(self, ros, name, message_type, ...)] has no default
    for [message_type].  A call that leaves it out fails with a
    [TypeError], an [Exception], when Python binds the arguments. *)
Definition Topic_requires_message_type {W : Type} (env : environment W) : Prop :=
  forall name w, exists e,
    result (env (Topic_init name None) w).1 = Raises e /\ is_Exception e = true.


(** The names of the properties a tool's schema declares. *)
Definition property_names (t : types.Tool) : list string :=
  map fst (types.properties (types.inputSchema t)).

(** ** Environments and a runtime to run examples in *)

Module Examples.

(** [repr] of a [str] that has no quote, backslash or control character in
    it, and a stand-in for the default [repr] of an object. *)
Definition runtime : PyRuntime :=
  {| repr_str := fun s => "'" +:+ s +:+ "'";
     repr_obj := fun id => "<object " +:+ pretty id +:+ ">" |}.

(** An environment that plays back a list of replies in order, whatever
    is called; once the list is used up every call returns [None]. *)
Definition playback : environment (list reply) := fun _ w =>
  match w with
  | r :: w' => (r, w')
  | [] => ({| delivered := []; result := Returns VNone |}, [])
  end.

Definition ok (v : value) : reply := {| delivered := []; result := Returns v |}.
Definition ok_with (d : list value) (v : value) : reply :=
  {| delivered := d; result := Returns v |}.
Definition fails (e : exn) : reply := {| delivered := []; result := Raises e |}.

(** What roslibpy raises when the connection is down. *)
Definition RosTimeoutError : exn :=
  {| exn_class := "RosTimeoutError"; is_Exception := true;
     exn_str := "Failed to connect to ROS" |}.

(** A message of type [std_msgs/String]. *)
Definition msg (s : string) : value := VDict [("data", VStr s)].

Definition eight : list value :=
  [msg "1"; msg "2"; msg "3"; msg "4"; msg "5"; msg "6"; msg "7"; msg "8"].

(** The arguments [{"topic_name": "/t"}]. *)
Definition on_t : gmap string value := {[ "topic_name" := VStr "/t" ]}.

(** The [TypeError] of a call that leaves out a required parameter, here
    [roslibpy.Topic(ros, name)]. *)
Definition MissingMessageType : exn :=
  {| exn_class := "TypeError"; is_Exception := true;
     exn_str := "Topic.__init__() missing 1 required positional argument: 'message_type'" |}.

(** An environment made to respect the signature of [roslibpy.Topic]: a
    [Topic] built without a message type fails before the library is
    entered; every other call is answered by [env]. *)
Definition with_signatures {W : Type} (env : environment W) : environment W := fun c w =>
  match c with
  | Topic_init _ None => (fails MissingMessageType, w)
  | _ => env c w
  end.

End Examples.

(** ** The broker's parameter store *)

Module Broker.
(** Modelled from the spec: the state of the broker's parameter store,
    which lives behind roslibpy and the rosbridge connection and not in
    this repository.  The glossary describes a parameter as a named,
    mutable key/value entry in a shared configuration store; [objects]
    remembers the name each [Param] object was made for, by object id. *)
Record world : Type := {
  store : gmap string value;
  objects : list value
}.

Definition TypeError : exn :=
  {| exn_class := "TypeError"; is_Exception := true;
     exn_str := "parameter name must be a string" |}.

(** Modelled from the spec: the broker as a key/value store of
    parameters.  [Param(ros, name)] makes an object bound to [name];
    [set] writes the entry of that name and [get] reads it ([None] when it
    was never set).  Every other call returns [None] and leaves the store
    alone. *)
Definition env : environment world := fun c w =>
  match c with
  | Param_init name =>
      (Examples.ok (VObj (length (objects w))),
       {| store := store w; objects := objects w ++ [name] |})
  | Param_set (VObj id) new_value =>
      match objects w !! id with
      | Some (VStr x) =>
          (Examples.ok VNone, {| store := <[x := new_value]> (store w); objects := objects w |})
      | _ => (Examples.fails TypeError, w)
      end
  | Param_get (VObj id) =>
      match objects w !! id with
      | Some (VStr x) => (Examples.ok (default VNone (store w !! x)), w)
      | _ => (Examples.fails TypeError, w)
      end
  | _ => (Examples.ok VNone, w)
  end.
End Broker.

(** * Properties *)

(** ** Lists and slices *)

Lemma foldl_message_callback (messages d : list value) :
  foldl Server.message_callback messages d = (messages ++ d)%list.
Proof.
  revert messages.
  induction d as [|m d IH]; intros messages; simpl.
  - symmetry. apply app_nil_r.
  - rewrite IH. unfold Server.message_callback.
    rewrite <- app_assoc. reflexivity.
Qed.

Lemma truthy_nonempty (l : list value) : l <> [] -> Py.truthy l = true.
Proof. destruct l; [congruence | reflexivity]. Qed.

Lemma slice_last_suffix (k : nat) (l : list value) :
  (take (length l - k) l ++ Py.slice_last k l)%list = l.
Proof. unfold Py.slice_last. apply take_drop. Qed.

Lemma slice_last_length (k : nat) (l : list value) :
  length (Py.slice_last k l) = Nat.min k (length l).
Proof. unfold Py.slice_last. rewrite length_drop. lia. Qed.

Lemma slice_last_short (k : nat) (l : list value) :
  (length l <= k)%nat -> Py.slice_last k l = l.
Proof.
  intros Hle. unfold Py.slice_last.
  replace (length l - k)%nat with 0%nat by lia. reflexivity.
Qed.

(** ** Runs *)

Section Runs.
Context {W : Type} (env : environment W).

Lemma run_returns_only {A : Type} (P : A -> Prop) (p : prog A) :
  returns_only P p -> forall w a, ended (run env p w) = Returns a -> P a.
Proof.
  induction 1 as [a Ha | e | c k _ IH]; intros w b; simpl.
  - intros [= <-]. exact Ha.
  - discriminate.
  - destruct (env c w) as [r w']. simpl. apply IH.
Qed.

(** A run of a [try] block whose [except Exception] clause only builds a
    value: the same calls and the same final state as the protected body,
    and the body's outcome with a caught exception replaced. *)
Lemma run_try_except_Exception {A : Type} (p : prog A) (h : exn -> A) w :
  run env (try_except_Exception p (fun e => Ret (h e))) w =
    let x := run env p w in
    {| ended := match ended x with
                | Returns a => Returns a
                | Raises e => if is_Exception e then Returns (h e) else Raises e
                end;
       world_after := world_after x;
       calls := calls x |}.
Proof.
  revert w. induction p as [a | e | c k IH]; intros w; simpl.
  - reflexivity.
  - destruct (is_Exception e); reflexivity.
  - destruct (env c w) as [r w']. rewrite IH. reflexivity.
Qed.
End Runs.

Lemma returns_only_bind {A B : Type} (Q : A -> Prop) (P : B -> Prop)
    (p : prog A) (f : A -> prog B) :
  returns_only Q p -> (forall a, Q a -> returns_only P (f a)) ->
  returns_only P (bind p f).
Proof.
  intros Hp Hf. induction Hp as [a Ha | e | c k _ IH]; simpl.
  - apply Hf, Ha.
  - constructor.
  - constructor. exact IH.
Qed.

Lemma returns_only_True {A : Type} (p : prog A) : returns_only (fun _ => True) p.
Proof. induction p; constructor; auto. Qed.

(** ** The dispatch *)

Section Dispatch.
Context `{PyRuntime}.

Import Server.

(** The branch each supported name selects. *)
Lemma body_get_topic_info arguments :
  body "get_topic_info" arguments =
    (topic_name <- getitem arguments "topic_name" ;;
     topic_type <- call (ros_get_topic_type topic_name) ;;
     Ret (Some (text_result
       ("Topic " +:+ Py.str topic_name +:+ " type: " +:+ Py.str topic_type)))).
Proof. reflexivity. Qed.

Lemma body_publish_message arguments :
  body "publish_message" arguments =
    (topic_name <- getitem arguments "topic_name" ;;
     message_type <- getitem arguments "message_type" ;;
     message_data <- getitem arguments "message_data" ;;
     publisher <- call (Topic_init topic_name (Some message_type)) ;;
     message <- call (Message_init message_data) ;;
     _ <- call (Topic_publish publisher message) ;;
     Ret (Some (text_result ("Published message to " +:+ Py.str topic_name)))).
Proof. reflexivity. Qed.

Lemma body_get_node_info arguments :
  body "get_node_info" arguments =
    (node_name <- getitem arguments "node_name" ;;
     node_details <- call (ros_get_node_details node_name) ;;
     Ret (Some (text_result
       ("Node " +:+ Py.str node_name +:+ " details: " +:+ Py.str node_details)))).
Proof. reflexivity. Qed.

Lemma body_get_service_info arguments :
  body "get_service_info" arguments =
    (service_name <- getitem arguments "service_name" ;;
     service_type <- call (ros_get_service_type service_name) ;;
     Ret (Some (text_result
       ("Service " +:+ Py.str service_name +:+ " type: " +:+ Py.str service_type)))).
Proof. reflexivity. Qed.

Lemma body_call_service arguments :
  body "call_service" arguments =
    (service_name <- getitem arguments "service_name" ;;
     service_type <- getitem arguments "service_type" ;;
     service_args <- getitem arguments "service_args" ;;
     service <- call (Service_init service_name service_type) ;;
     request <- call (ServiceRequest_init service_args) ;;
     result <- call (Service_call service request) ;;
     Ret (Some (text_result ("Service call result: " +:+ Py.str result)))).
Proof. reflexivity. Qed.

Lemma body_get_param arguments :
  body "get_param" arguments =
    (param_name <- getitem arguments "param_name" ;;
     param <- call (Param_init param_name) ;;
     value <- call (Param_get param) ;;
     Ret (Some (text_result
       ("Parameter " +:+ Py.str param_name +:+ " value: " +:+ Py.str value)))).
Proof. reflexivity. Qed.

Lemma body_set_param arguments :
  body "set_param" arguments =
    (param_name <- getitem arguments "param_name" ;;
     param_value <- getitem arguments "param_value" ;;
     param <- call (Param_init param_name) ;;
     _ <- call (Param_set param param_value) ;;
     Ret (Some (text_result
       ("Set parameter " +:+ Py.str param_name +:+ " to " +:+ Py.str param_value)))).
Proof. reflexivity. Qed.

Lemma body_subscribe_topic arguments :
  body "subscribe_topic" arguments =
    (topic_name <- getitem arguments "topic_name" ;;
     let timeout := get arguments "timeout" (VFloat "5.0") in
     listener <- call (Topic_init topic_name None) ;;
     messages <- call_listening [] (Topic_subscribe listener) ;;
     messages <- call_listening messages (asyncio_sleep timeout) ;;
     messages <- call_listening messages (Topic_unsubscribe listener) ;;
     if Py.truthy messages then
       Ret (Some (text_result
         ("Received " +:+ Py.str (Py.len messages) +:+ " messages from "
            +:+ Py.str topic_name +:+ ": " +:+ Py.str (VList (Py.slice_last 5 messages)))))
     else
       Ret (Some (text_result
         ("No messages received from " +:+ Py.str topic_name +:+ " within "
            +:+ Py.str timeout +:+ " seconds")))).
Proof. reflexivity. Qed.

Lemma getitem_Some arguments k v :
  arguments !! k = Some v -> getitem arguments k = Ret v.
Proof. unfold getitem. intros ->. reflexivity. Qed.

Lemma getitem_None arguments k :
  arguments !! k = None -> getitem arguments k = Throw (KeyError k).
Proof. unfold getitem. intros ->. reflexivity. Qed.

Lemma run_handle_call_tool {W : Type} (env : environment W) name arguments w :
  run env (handle_call_tool name arguments) w =
    let x := run env (body name arguments) w in
    {| ended := match ended x with
                | Returns a => Returns a
                | Raises e =>
                    if is_Exception e
                    then Returns (Some (text_result (error_text name e)))
                    else Raises e
                end;
       world_after := world_after x;
       calls := calls x |}.
Proof. unfold handle_call_tool. apply run_try_except_Exception. Qed.

(** A name outside the tool list fails every comparison of the chain. *)
Lemma body_unknown name arguments :
  name ∉ tool_names -> body name arguments = Ret None.
Proof.
  unfold tool_names, handle_list_tools. simpl. intros Hname.
  repeat (apply not_elem_of_cons in Hname as [? Hname]).
  unfold body.
  repeat match goal with
  | Hn : name <> ?s |- context [String.eqb name ?s] =>
      rewrite (proj2 (String.eqb_neq name s) Hn)
  end.
  reflexivity.
Qed.
End Dispatch.

(** ** The handler against an arbitrary environment *)

Section Handler_facts.
Context `{PyRuntime} {W : Type} (env : environment W).

Import Server.


(** C9: a name outside the twelve supported operations matches no branch:
    [handle_call_tool] makes no call and returns [None], neither a success
    text nor an error text. *)
Theorem unknown_name_returns_None name arguments w :
  name ∉ tool_names ->
  run env (handle_call_tool name arguments) w =
    {| ended := Returns None; world_after := w; calls := [] |}.
Proof.
  intros Hname. rewrite run_handle_call_tool, (body_unknown _ _ Hname).
  reflexivity.
Qed.
Ltac destruct_lookups a ks :=
  lazymatch ks with
  | cons ?k ?ks' => destruct (a !! k) eqn:?; destruct_lookups a ks'
  | _ => idtac
  end.

Ltac rewrite_lookups :=
  repeat match goal with
  | E : _ !! _ = _ |- _ => rewrite E
  end.

(** C7: when the argument dictionary lacks an argument the operation's
    schema requires, the lookup of the first missing one raises before any
    call into the client library is made: the run makes no call, leaves the
    environment as it was, and returns the error text naming the operation
    and the missing key. *)
Theorem missing_required_argument t arguments k w :
  t ∈ handle_list_tools ->
  k ∈ types.required (types.inputSchema t) ->
  arguments !! k = None ->
  exists k',
    k' ∈ types.required (types.inputSchema t) /\
    arguments !! k' = None /\
    run env (handle_call_tool (types.name t) arguments) w =
      {| ended := Returns (Some (text_result
           ("Error executing " +:+ types.name t +:+ ": " +:+ repr_str k')));
         world_after := w;
         calls := [] |}.
Proof.
  intros Ht Hk Hnone. unfold handle_list_tools in Ht.
  repeat (apply elem_of_cons in Ht as [-> | Ht]);
    try (by apply elem_of_nil in Ht);
    cbn [tool types.required types.inputSchema types.name] in *;
    try (by apply elem_of_nil in Hk);
    match goal with
    | Hk' : _ ∈ ?ks |- _ => destruct_lookups arguments ks
    end;
    try (exfalso;
         repeat (apply elem_of_cons in Hk as [-> | Hk]);
         try (by apply elem_of_nil in Hk); congruence);
    clear Hk Hnone;
    (eexists; split; [| split]; cycle 2;
     [ rewrite run_handle_call_tool;
       unfold body, getitem; cbn [String.eqb Ascii.eqb Bool.eqb];
       rewrite_lookups; reflexivity
     | repeat first [ apply list_elem_of_here | apply list_elem_of_further ]
     | assumption ]).
Qed.

End Handler_facts.

(** ** Parameters against the broker's store *)

Section Parameters.
Context `{PyRuntime}.

Import Server.

Lemma run_set_param arguments (x : string) v w :
  arguments !! "param_name" = Some (VStr x) ->
  arguments !! "param_value" = Some v ->
  run Broker.env (handle_call_tool "set_param" arguments) w =
    {| ended := Returns (Some (text_result ("Set parameter " +:+ x +:+ " to " +:+ Py.str v)));
       world_after :=
         {| Broker.store := <[x := v]> (Broker.store w);
            Broker.objects := Broker.objects w ++ [VStr x] |};
       calls := [Param_init (VStr x); Param_set (VObj (length (Broker.objects w))) v] |}.
Proof.
  intros Hname Hvalue.
  rewrite run_handle_call_tool, body_set_param.
  rewrite (getitem_Some _ _ _ Hname), (getitem_Some _ _ _ Hvalue).
  cbn [run bind call Broker.env Examples.ok result delivered ended world_after calls
       Broker.objects Broker.store].
  rewrite list_lookup_middle by reflexivity.
  reflexivity.
Qed.

Lemma run_get_param arguments (x : string) w :
  arguments !! "param_name" = Some (VStr x) ->
  run Broker.env (handle_call_tool "get_param" arguments) w =
    {| ended := Returns (Some (text_result
         ("Parameter " +:+ x +:+ " value: "
            +:+ Py.str (default VNone (Broker.store w !! x)))));
       world_after :=
         {| Broker.store := Broker.store w;
            Broker.objects := Broker.objects w ++ [VStr x] |};
       calls := [Param_init (VStr x); Param_get (VObj (length (Broker.objects w)))] |}.
Proof.
  intros Hname.
  rewrite run_handle_call_tool, body_get_param.
  rewrite (getitem_Some _ _ _ Hname).
  cbn [run bind call Broker.env Examples.ok result delivered ended world_after calls
       Broker.objects Broker.store].
  rewrite list_lookup_middle by reflexivity.
  reflexivity.
Qed.

(** C6: against a broker that keeps parameters in a key/value store,
    [set_param] of [x] to [v] followed at once by [get_param] of [x]
    returns one text content whose text reports [v] as the value of [x]. *)
Theorem set_param_then_get_param (x : string) (v : value) args_set args_get w :
  args_set !! "param_name" = Some (VStr x) ->
  args_set !! "param_value" = Some v ->
  args_get !! "param_name" = Some (VStr x) ->
  let after_set := world_after (run Broker.env (handle_call_tool "set_param" args_set) w) in
  ended (run Broker.env (handle_call_tool "get_param" args_get) after_set) =
    Returns (Some [ {| types.type := "text";
                       types.text := "Parameter " +:+ x +:+ " value: " +:+ Py.str v |} ]).
Proof.
  intros Hname Hvalue Hget after_set. unfold after_set.
  rewrite (run_set_param _ _ _ _ Hname Hvalue). cbn [world_after].
  rewrite (run_get_param _ _ _ Hget). cbn [ended Broker.store].
  rewrite lookup_insert_eq. reflexivity.
Qed.
End Parameters.

(** * Further properties of the dispatcher *)

(** ** Programs and their traces *)

Lemma calls_only_bind {A B : Type} (P : libcall -> Prop) (p : prog A) (f : A -> prog B) :
  calls_only P p -> (forall a, calls_only P (f a)) -> calls_only P (bind p f).
Proof.
  intros Hp Hf. induction Hp as [a | e | c k Hc _ IH]; simpl.
  - apply Hf.
  - constructor.
  - constructor; [exact Hc | exact IH].
Qed.

Lemma calls_only_call (P : libcall -> Prop) (c : libcall) :
  P c -> calls_only P (call c).
Proof.
  intros Hc. constructor; [exact Hc |].
  intros r. destruct (result r); constructor.
Qed.

Lemma run_calls_only {W A : Type} (env : environment W) (P : libcall -> Prop) (p : prog A) :
  calls_only P p -> forall w, Forall P (calls (run env p w)).
Proof.
  induction 1 as [a | e | c k Hc _ IH]; intros w; simpl.
  - constructor.
  - constructor.
  - destruct (env c w) as [r w']. simpl. constructor; [exact Hc | apply IH].
Qed.

Lemma fail_fast_bind {A B : Type} (p : prog A) (f : A -> prog B) :
  fail_fast p -> (forall a, fail_fast (f a)) -> fail_fast (bind p f).
Proof.
  intros Hp Hf. induction Hp as [a | e | c k Hraise _ IH]; simpl.
  - apply Hf.
  - constructor.
  - constructor; [| exact IH].
    intros r e Hr. rewrite (Hraise r e Hr). reflexivity.
Qed.

Lemma fail_fast_call (c : libcall) : fail_fast (call c).
Proof.
  constructor.
  - intros r e Hr. rewrite Hr. reflexivity.
  - intros r. destruct (result r); constructor.
Qed.

Lemma answers_try_except_Exception {W A : Type} (env : environment W)
    (p : prog A) (h : exn -> A) w :
  answers env (try_except_Exception p (fun e => Ret (h e))) w = answers env p w.
Proof.
  revert w. induction p as [a | e | c k IH]; intros w; simpl.
  - reflexivity.
  - destruct (is_Exception e); reflexivity.
  - destruct (env c w) as [r w']. rewrite IH. reflexivity.
Qed.

(** In a run of a program that gives up at the first raise, every reply
    but the last is a normal return. *)
Lemma answers_fail_fast {W A : Type} (env : environment W) (p : prog A) :
  fail_fast p ->
  forall w (i : nat) r,
    answers env p w !! i = Some r ->
    (S i < length (answers env p w))%nat ->
    exists v, result r = Returns v.
Proof.
  induction 1 as [a | e | c k Hraise _ IH]; intros w i r; simpl.
  - intros Hr. discriminate Hr.
  - intros Hr. discriminate Hr.
  - destruct (env c w) as [r0 w'] eqn:Henv. destruct i as [| i]; simpl.
    + intros [= <-] Hlen.
      destruct (result r0) as [v | e] eqn:Hr0; [exists v; reflexivity |].
      rewrite (Hraise r0 e Hr0) in Hlen. simpl in Hlen. lia.
    + intros Hr Hlen. apply (IH r0 w' i r Hr). lia.
Qed.

Section Dispatcher_facts.
Context `{PyRuntime}.

Import Server.

Lemma calls_only_call_listening (P : libcall -> Prop) messages c :
  P c -> calls_only P (call_listening messages c).
Proof.
  intros Hc. constructor; [exact Hc |].
  intros r. destruct (result r); constructor.
Qed.

Lemma calls_only_getitem (P : libcall -> Prop) arguments k :
  calls_only P (getitem arguments k).
Proof. unfold getitem. destruct (arguments !! k); constructor. Qed.

Lemma fail_fast_call_listening messages c : fail_fast (call_listening messages c).
Proof.
  constructor.
  - intros r e Hr. cbv zeta. rewrite Hr. reflexivity.
  - intros r. cbv zeta. destruct (result r); constructor.
Qed.

Lemma fail_fast_getitem arguments k : fail_fast (getitem arguments k).
Proof. unfold getitem. destruct (arguments !! k); constructor. Qed.

(** Split on the branch the name selects: one goal per comparison of the
    chain that succeeds, and one for a name that fails them all. *)
Ltac dispatch name :=
  unfold body;
  repeat match goal with
  | |- context [String.eqb name ?s] =>
      destruct (String.eqb_spec name s); cbv iota
  end.

Lemma body_fail_fast name arguments : fail_fast (body name arguments).
Proof.
  dispatch name;
    repeat first
      [ apply fail_fast_call
      | apply fail_fast_call_listening
      | apply fail_fast_getitem
      | apply ff_Ret
      | apply fail_fast_bind; [| intros ?]
      | progress cbv zeta
      | match goal with |- context [if ?b then _ else _] => destruct b end ].
Qed.

Lemma answers_handle_call_tool {W : Type} (env : environment W) name arguments w :
  answers env (handle_call_tool name arguments) w = answers env (body name arguments) w.
Proof. unfold handle_call_tool. apply answers_try_except_Exception. Qed.

Ltac destruct_lookups a ks :=
  lazymatch ks with
  | cons ?k ?ks' => destruct (a !! k) eqn:?; destruct_lookups a ks'
  | _ => idtac
  end.

Ltac rewrite_lookups :=
  repeat match goal with
  | E : _ !! _ = _ |- _ => rewrite E
  end.

Ltac membership :=
  repeat first [ apply list_elem_of_here | apply list_elem_of_further ].

(** X1: the schemas are well formed: no two tools share a name, no schema
    declares a property twice, and every argument a schema requires is one
    of the properties it declares. *)
Theorem handle_list_tools_well_formed :
  NoDup tool_names /\
  Forall (fun t => NoDup (property_names t) /\
                   Forall (fun k => k ∈ property_names t)
                          (types.required (types.inputSchema t)))
         handle_list_tools.
Proof.
  split.
  - compute_done.
  - unfold handle_list_tools.
    repeat (constructor;
            [ split; [compute_done | repeat (constructor; [compute_done |]); constructor]
            | ]).
    constructor.
Qed.

(** X2: the handler asks for exactly the arguments the schema requires: a call
    of a listed tool makes no library call at all if and only if one of
    the tool's required arguments is missing. *)
Theorem no_call_iff_required_argument_missing {W : Type} (env : environment W)
    t arguments w :
  t ∈ handle_list_tools ->
  calls (run env (handle_call_tool (types.name t) arguments) w) = [] <->
  exists k, k ∈ types.required (types.inputSchema t) /\ arguments !! k = None.
Proof.
  intros Ht. unfold handle_list_tools in Ht.
  repeat (apply elem_of_cons in Ht as [-> | Ht]);
    try (by apply elem_of_nil in Ht);
    cbn [tool types.required types.inputSchema types.name];
    rewrite run_handle_call_tool; cbn [calls];
    unfold body, getitem; cbn [String.eqb Ascii.eqb Bool.eqb];
    match goal with
    | |- _ <-> (exists k, k ∈ ?ks /\ _) => destruct_lookups arguments ks
    end;
    first
      [ (* a required argument is missing: the first lookup that fails raises *)
        solve [ split;
                [ intros _; eexists; split; cycle 1; [eassumption | membership]
                | intros _; reflexivity ] ]
      | (* all are there: the branch reaches its first call *)
        cbn [run bind call];
        match goal with
        | |- context [env ?c w] => destruct (env c w) as [r w']
        end;
        cbn [calls];
        split;
        [ intros Hnil; discriminate Hnil
        | intros (k & Hk & Hnone); exfalso;
          repeat (apply elem_of_cons in Hk as [-> | Hk]);
          try (by apply elem_of_nil in Hk); congruence ] ].
Qed.

(** X3: the handler reads no argument the schema does not declare: two
    argument dictionaries that agree on the declared properties of a tool
    give the same program, hence the same calls, result and final state in
    every environment. *)
Theorem undeclared_arguments_are_ignored t arguments arguments' :
  t ∈ handle_list_tools ->
  (forall k, k ∈ property_names t -> arguments !! k = arguments' !! k) ->
  handle_call_tool (types.name t) arguments = handle_call_tool (types.name t) arguments'.
Proof.
  intros Ht Hagree. unfold handle_list_tools in Ht.
  repeat (apply elem_of_cons in Ht as [-> | Ht]);
    try (by apply elem_of_nil in Ht);
    cbn [tool types.name];
    unfold handle_call_tool, body, getitem, get; cbn [String.eqb Ascii.eqb Bool.eqb];
    repeat match goal with
    | |- context [arguments !! ?k] =>
        rewrite (Hagree k ltac:(unfold property_names; cbn; membership))
    end;
    reflexivity.
Qed.

(** X4: no retry and no cleanup: in every run of the handler, each reply
    before the last one is a normal return.  Once a library call raises,
    the handler makes no further call. *)
Theorem no_call_after_a_raise {W : Type} (env : environment W)
    name arguments w (i : nat) r :
  answers env (handle_call_tool name arguments) w !! i = Some r ->
  (S i < length (answers env (handle_call_tool name arguments) w))%nat ->
  exists v, result r = Returns v.
Proof.
  rewrite answers_handle_call_tool.
  apply answers_fail_fast, body_fail_fast.
Qed.

(** X7: only [subscribe_topic] opens a subscription window: a call under any
    other name never subscribes, sleeps or unsubscribes. *)
Theorem only_subscribe_topic_listens {W : Type} (env : environment W) name arguments w :
  name <> "subscribe_topic" ->
  Forall (fun c => listens c = false)
         (calls (run env (handle_call_tool name arguments) w)).
Proof.
  intros Hname. rewrite run_handle_call_tool. cbn [calls].
  apply run_calls_only.
  dispatch name; try congruence;
    repeat first
      [ apply calls_only_call; reflexivity
      | apply calls_only_getitem
      | apply co_Ret
      | apply calls_only_bind; [| intros ?] ].
Qed.

(** X8: only [publish_message], [call_service] and [set_param] act on the
    robot: a call under any other name never publishes a message, calls a
    service or writes a parameter. *)
Theorem only_three_operations_act_on_robot {W : Type} (env : environment W)
    name arguments w :
  name ∉ ["publish_message"; "call_service"; "set_param"] ->
  Forall (fun c => acts_on_robot c = false)
         (calls (run env (handle_call_tool name arguments) w)).
Proof.
  intros Hname.
  repeat (apply not_elem_of_cons in Hname as [? Hname]).
  rewrite run_handle_call_tool. cbn [calls].
  apply run_calls_only.
  dispatch name; try congruence;
    repeat first
      [ apply calls_only_call; reflexivity
      | apply calls_only_call_listening; reflexivity
      | apply calls_only_getitem
      | apply co_Ret
      | apply calls_only_bind; [| intros ?]
      | progress cbv zeta
      | match goal with |- context [if ?b then _ else _] => destruct b end ].
Qed.

(** X9: a success text is never mistaken for an error text: whatever a
    supported operation returns from its [try] block differs from every
    text the [except] clause can build, for any operation name and any
    exception. *)
Theorem success_text_is_no_error_text {W : Type} (env : environment W)
    name arguments w a :
  name ∈ tool_names ->
  ended (run env (body name arguments) w) = Returns a ->
  exists s, a = Some (text_result s) /\ forall n e, s <> error_text n e.
Proof.
  intros Hname Hrun.
  apply (run_returns_only env
           (fun a => exists s, a = Some (text_result s) /\ forall n e, s <> error_text n e)
           (body name arguments)) with (w := w); [| exact Hrun].
  clear Hrun.
  unfold tool_names, handle_list_tools in Hname. simpl in Hname.
  repeat (apply elem_of_cons in Hname as [-> | Hname]);
    try (by apply elem_of_nil in Hname);
    unfold body; cbn [String.eqb Ascii.eqb Bool.eqb];
    repeat (cbv zeta; apply (returns_only_bind (fun _ => True));
            [apply returns_only_True | intros ? _]);
    try match goal with |- context [if ?b then _ else _] => destruct b end;
    (apply ro_Ret; eexists; split; [reflexivity |];
     intros n e; unfold error_text; cbn [String.append]; discriminate).
Qed.
End Dispatcher_facts.

(** * The handler against the library as it is *)

Section Library_facts.
Context `{PyRuntime} {W : Type} (env : environment W).

Import Server.

Ltac dispatch name :=
  unfold body;
  repeat match goal with
  | |- context [String.eqb name ?s] =>
      destruct (String.eqb_spec name s); cbv iota
  end.


(** [subscribe_topic] with a topic name, against a library in which
    [Topic] needs its message type: the [try] block makes the one call
    [Topic(ros, topic_name)] and ends with the [TypeError] it raises. *)
Lemma run_subscribe_topic_fails arguments topic w :
  Topic_requires_message_type env ->
  arguments !! "topic_name" = Some topic ->
  exists e,
    result (env (Topic_init topic None) w).1 = Raises e /\
    is_Exception e = true /\
    run env (body "subscribe_topic" arguments) w =
      {| ended := Raises e;
         world_after := (env (Topic_init topic None) w).2;
         calls := [Topic_init topic None] |}.
Proof.
  intros HTopic Htopic.
  destruct (HTopic topic w) as (e & He & Hexc).
  exists e. split; [exact He |]. split; [exact Hexc |].
  rewrite body_subscribe_topic, (getitem_Some _ _ _ Htopic).
  cbn [run bind call call_listening].
  destruct (env (Topic_init topic None) w) as [r w']. simpl in He.
  rewrite He. reflexivity.
Qed.


(** C2, what the code does instead: [Topic(ros, topic_name)] leaves out the
    message type, so the call raises before anything is subscribed, and
    whatever is published on the topic, [subscribe_topic] returns the
    error text of that [TypeError], never a count or a message. *)
Theorem subscribe_topic_reports_no_message arguments topic w :
  Topic_requires_message_type env ->
  arguments !! "topic_name" = Some topic ->
  exists e,
    result (env (Topic_init topic None) w).1 = Raises e /\
    ended (run env (handle_call_tool "subscribe_topic" arguments) w)
      = Returns (Some [ {| types.type := "text";
                           types.text := "Error executing subscribe_topic: " +:+ exn_str e |} ]).
Proof.
  intros HTopic Htopic.
  destruct (run_subscribe_topic_fails arguments topic w HTopic Htopic)
    as (e & He & Hexc & Hrun).
  exists e. split; [exact He |].
  rewrite run_handle_call_tool, Hrun. cbn [ended]. rewrite Hexc. reflexivity.
Qed.

(** C3, what the code does instead: on a silent topic too the [try] block
    of [subscribe_topic] raises, so the outcome is built by the [except]
    clause and is not the text that says no messages were received. *)
Theorem subscribe_topic_silence_is_an_error arguments topic w :
  Topic_requires_message_type env ->
  arguments !! "topic_name" = Some topic ->
  (exists e, ended (run env (body "subscribe_topic" arguments) w) = Raises e /\
             is_Exception e = true) /\
  ended (run env (handle_call_tool "subscribe_topic" arguments) w)
    <> Returns (Some [ {| types.type := "text";
                          types.text :=
                            "No messages received from " +:+ Py.str topic +:+ " within "
                              +:+ Py.str (get arguments "timeout" (VFloat "5.0"))
                              +:+ " seconds" |} ]).
Proof.
  intros HTopic Htopic.
  destruct (run_subscribe_topic_fails arguments topic w HTopic Htopic)
    as (e & He & Hexc & Hrun).
  split.
  - exists e. rewrite Hrun. split; [reflexivity | exact Hexc].
  - rewrite run_handle_call_tool, Hrun. cbn [ended]. rewrite Hexc.
    unfold error_text, text_result. cbn [String.append]. discriminate.
Qed.

(** C8, what the code does instead: no run of [subscribe_topic] ever reaches
    [asyncio.sleep], with or without a [timeout] entry: there is no
    collection window, of 5.0 or of any other length. *)
Theorem subscribe_topic_never_sleeps arguments w :
  Topic_requires_message_type env ->
  Forall (fun c => awaits c = false)
         (calls (run env (handle_call_tool "subscribe_topic" arguments) w)).
Proof.
  intros HTopic. rewrite run_handle_call_tool. cbn [calls].
  destruct (arguments !! "topic_name") as [topic |] eqn:Htopic.
  - destruct (run_subscribe_topic_fails arguments topic w HTopic Htopic)
      as (e & _ & _ & Hrun).
    rewrite Hrun. cbn [calls]. constructor; [reflexivity | constructor].
  - rewrite body_subscribe_topic, (getitem_None _ _ Htopic). constructor.
Qed.

End Library_facts.

(** The example environments respect the library's signature. *)
Lemma with_signatures_Topic {W : Type} (env : environment W) :
  Topic_requires_message_type (Examples.with_signatures env).
Proof.
  intros name w. exists Examples.MissingMessageType. split; reflexivity.
Qed.


(** * The theorems at concrete inputs *)

Section Concrete.
Import Server Examples.
Local Existing Instance runtime.


(** Eight messages are ready to be delivered; none is ever asked for. *)
Lemma subscribe_topic_reports_no_message_witness :
  exists e,
    result (with_signatures playback (Topic_init (VStr "/t") None)
              [ok VNone; ok_with eight VNone; ok VNone]).1 = Raises e /\
    ended (run (with_signatures playback) (handle_call_tool "subscribe_topic" on_t)
             [ok VNone; ok_with eight VNone; ok VNone])
      = Returns (Some [ {| types.type := "text";
                           types.text := "Error executing subscribe_topic: " +:+ exn_str e |} ]).
Proof.
  refine (subscribe_topic_reports_no_message (with_signatures playback) on_t (VStr "/t")
            [ok VNone; ok_with eight VNone; ok VNone] (with_signatures_Topic playback) _).
  vm_compute. reflexivity.
Defined.

(** A silent topic. *)
Lemma subscribe_topic_silence_is_an_error_witness :
  (exists e,
     ended (run (with_signatures playback) (body "subscribe_topic" on_t) []) = Raises e /\
     is_Exception e = true) /\
  ended (run (with_signatures playback) (handle_call_tool "subscribe_topic" on_t) [])
    <> Returns (Some [ {| types.type := "text";
                          types.text :=
                            "No messages received from " +:+ Py.str (VStr "/t") +:+ " within "
                              +:+ Py.str (get on_t "timeout" (VFloat "5.0"))
                              +:+ " seconds" |} ]).
Proof.
  refine (subscribe_topic_silence_is_an_error (with_signatures playback) on_t (VStr "/t") []
            (with_signatures_Topic playback) _).
  vm_compute. reflexivity.
Defined.

(** No [timeout] entry in the arguments, and no sleep. *)
Lemma subscribe_topic_never_sleeps_witness :
  Forall (fun c => awaits c = false)
         (calls (run (with_signatures playback) (handle_call_tool "subscribe_topic" on_t)
                   [ok VNone; ok VNone; ok VNone])).
Proof.
  exact (subscribe_topic_never_sleeps (with_signatures playback) on_t
           [ok VNone; ok VNone; ok VNone] (with_signatures_Topic playback)).
Defined.


(** A name that is not a tool. *)
Lemma unknown_name_returns_None_witness :
  ("reboot" ∉ tool_names) /\
  run playback (handle_call_tool "reboot" on_t) [] =
    {| ended := Returns None; world_after := []; calls := [] |}.
Proof.
  assert (Hname : "reboot" ∉ tool_names) by compute_done.
  split; [exact Hname |].
  exact (unknown_name_returns_None playback "reboot" on_t [] Hname).
Defined.

(** [publish_message] with only a topic name. *)
Lemma missing_required_argument_witness :
  exists k',
    k' ∈ ["topic_name"; "message_type"; "message_data"] /\
    on_t !! k' = None /\
    run playback (handle_call_tool "publish_message" on_t) [] =
      {| ended := Returns (Some (text_result
           ("Error executing publish_message: " +:+ repr_str k')));
         world_after := [];
         calls := [] |}.
Proof.
  refine (missing_required_argument playback
            (tool "publish_message" "Publish a message to a ROS topic"
               [("topic_name", "string"); ("message_type", "string");
                ("message_data", "object")]
               ["topic_name"; "message_type"; "message_data"])
            on_t "message_data" [] _ _ _).
  - unfold handle_list_tools.
    repeat first [ apply list_elem_of_here | apply list_elem_of_further ].
  - compute_done.
  - vm_compute. reflexivity.
Defined.

(** [set_param("x", "5")] then [get_param("x")] on an empty store. *)
Lemma set_param_then_get_param_witness :
  ended (run Broker.env (handle_call_tool "get_param" {[ "param_name" := VStr "x" ]})
           (world_after
              (run Broker.env
                 (handle_call_tool "set_param"
                    {[ "param_name" := VStr "x"; "param_value" := VStr "5" ]})
                 {| Broker.store := ∅; Broker.objects := [] |}))) =
    Returns (Some [ {| types.type := "text"; types.text := "Parameter x value: 5" |} ]).
Proof.
  refine (set_param_then_get_param "x" (VStr "5") _ _ _ _ _ _).
  - vm_compute. reflexivity.
  - vm_compute. reflexivity.
  - vm_compute. reflexivity.
Defined.
End Concrete.

(** * The further properties at concrete inputs *)

Section Concrete_further.
Import Server Examples.
Local Existing Instance runtime.

(** [get_param] without its [param_name]. *)
Lemma no_call_iff_required_argument_missing_witness :
  calls (run playback (handle_call_tool "get_param" ∅) [ok VNone]) = [] <->
  exists k, k ∈ ["param_name"] /\ (∅ : gmap string value) !! k = None.
Proof.
  refine (no_call_iff_required_argument_missing playback
            (tool "get_param" "Get a ROS parameter value"
               [("param_name", "string")] ["param_name"])
            ∅ [ok VNone] _).
  unfold handle_list_tools.
  repeat first [ apply list_elem_of_here | apply list_elem_of_further ].
Defined.

(** [get_topic_info] with an entry the schema does not know. *)
Lemma undeclared_arguments_are_ignored_witness :
  handle_call_tool "get_topic_info" on_t =
  handle_call_tool "get_topic_info" (<[ "verbose" := VBool true ]> on_t).
Proof.
  refine (undeclared_arguments_are_ignored
            (tool "get_topic_info" "Get information about a specific ROS topic"
               [("topic_name", "string")] ["topic_name"])
            on_t (<[ "verbose" := VBool true ]> on_t) _ _).
  - unfold handle_list_tools.
    repeat first [ apply list_elem_of_here | apply list_elem_of_further ].
  - intros k Hk. apply list_elem_of_singleton in Hk. rewrite Hk.
    vm_compute. reflexivity.
Defined.

(** A [publish_message] whose [publish] fails: the replies to the two
    calls before it are normal returns. *)
Lemma no_call_after_a_raise_witness :
  exists v, result (ok (VObj 0)) = Returns v.
Proof.
  refine (no_call_after_a_raise playback "publish_message"
            {[ "topic_name" := VStr "/chatter";
               "message_type" := VStr "std_msgs/String";
               "message_data" := msg "hello" ]}
            [ok (VObj 0); ok (VObj 1); fails RosTimeoutError] 0 (ok (VObj 0)) _ _).
  - vm_compute. reflexivity.
  - vm_compute. lia.
Defined.

(** [get_topic_info] opens no subscription window. *)
Lemma only_subscribe_topic_listens_witness :
  Forall (fun c => listens c = false)
         (calls (run playback (handle_call_tool "get_topic_info" on_t)
                   [ok (VStr "std_msgs/String")])).
Proof.
  refine (only_subscribe_topic_listens playback "get_topic_info" on_t
            [ok (VStr "std_msgs/String")] _).
  discriminate.
Defined.

(** [get_topic_info] does not act on the robot. *)
Lemma only_three_operations_act_on_robot_witness :
  Forall (fun c => acts_on_robot c = false)
         (calls (run playback (handle_call_tool "get_topic_info" on_t)
                   [ok (VStr "std_msgs/String")])).
Proof.
  refine (only_three_operations_act_on_robot playback "get_topic_info" on_t
            [ok (VStr "std_msgs/String")] _).
  compute_done.
Defined.

(** The text of a successful [list_topics]. *)
Lemma success_text_is_no_error_text_witness :
  exists s,
    Some (text_result "Available topics: ['/a', '/b']") = Some (text_result s) /\
    forall n e, s <> error_text n e.
Proof.
  refine (success_text_is_no_error_text playback "list_topics" ∅
            [ok (VList [VStr "/a"; VStr "/b"])]
            (Some (text_result "Available topics: ['/a', '/b']")) _ _).
  - compute_done.
  - vm_compute. reflexivity.
Defined.
End Concrete_further.
